(** * macaw/core/retrieval/search_engine.py

    A shallow embedding of the two abstract classes [Retrieval] and
    [ReRanker] and of the orchestration method [Retrieval.get_results].

    The module is written against collaborators it does not define: the
    query generator, the logger, the concrete [retrieve] of a subclass and
    the optional re-ranker.  They are reached through object references,
    two of them through the parameters dict at call time.  The embedding
    therefore keeps

    - a heap of Python objects (dicts, lists, class instances) addressed by
      references, so that the parameters dict and the conversation list are
      shared with the collaborators and may be changed by them;
    - a class table giving, per class and method name, the behaviour of a
      collaborator as an arbitrary function on the heap that returns or
      raises;
    - a trace of the method calls that the code of this module issues, each
      with its receiver, arguments and outcome.

    Method bodies are computations in a state-and-exception monad over the
    heap and the trace.  A collaborator call either returns or raises; what
    a collaborator does on its own account (its own calls, its own writes)
    shows in the heap it leaves, not in the trace. *)

From stdpp Require Import base strings gmap list.

Local Open Scope string_scope.
Local Open Scope list_scope.

(** ** Values, objects, heap *)

Definition loc := positive.

(** Python values as far as this module handles them: [None], strings (the
    query, log messages) and references to heap objects (dicts, lists,
    collaborator instances, documents). *)
Inductive value : Type :=
| VNone
| VStr (s : string)
| VRef (l : loc).
Arguments VRef l%_positive.

#[global] Instance value_eq_dec : EqDecision value.
Proof. solve_decision. Defined.

Inductive object : Type :=
| ODict (d : gmap string value)
| OList (xs : list value)
| OInst (cls : string) (attrs : gmap string value).

Abbreviation heap := (gmap loc object).

Inductive exn : Type :=
| KeyError (key : string)
| AttributeError (name : string)
| TypeError
| OtherError (tag : string).

#[global] Instance exn_eq_dec : EqDecision exn.
Proof. solve_decision. Defined.

Inductive outcome (A : Type) : Type :=
| Ret (a : A)
| Raise (e : exn).
Arguments Ret {A} a.
Arguments Raise {A} e.

#[global] Instance outcome_eq_dec {A} `{EqDecision A} : EqDecision (outcome A).
Proof. solve_decision. Defined.

(** A collaborator method: receiver, positional arguments, heap in; a
    returned value or a raised exception, and the heap it leaves, out. *)
Definition behaviour : Type :=
  value → list value → heap → outcome value * heap.

(** One call issued by this module. *)
Record event : Type := EvCall {
  ev_recv : value;
  ev_name : string;
  ev_args : list value;
  ev_res : outcome value;
}.

#[global] Instance event_eq_dec : EqDecision event.
Proof. solve_decision. Defined.

Record state : Type := State {
  st_heap : heap;
  st_trace : list event;
}.

(** ** The monad *)

Definition M (A : Type) : Type := state → outcome A * state.

Definition ret {A} (a : A) : M A := λ st, (Ret a, st).

Definition raise {A} (e : exn) : M A := λ st, (Raise e, st).

Definition bind {A B} (c : M A) (k : A → M B) : M B :=
  λ st,
    match c st with
    | (Ret a, st') => k a st'
    | (Raise e, st') => (Raise e, st')
    end.

Notation "'let!' x := c 'in' k" := (bind c (λ x, k))
  (at level 10, x pattern, c at level 100, k at level 200).

(** ** Strings *)

(** [needle in hay] on Python strings. *)
Fixpoint str_contains (needle hay : string) : bool :=
  String.prefix needle hay ||
  match hay with
  | EmptyString => false
  | String _ hay' => str_contains needle hay'
  end.

(** ** Object primitives *)

(** [o.name] for a data attribute kept in the instance. *)
Definition getattr (o : value) (name : string) : M value :=
  λ st,
    match o with
    | VRef l =>
        match st_heap st !! l with
        | Some (OInst _ attrs) =>
            match attrs !! name with
            | Some v => (Ret v, st)
            | None => (Raise (AttributeError name), st)
            end
        | _ => (Raise (AttributeError name), st)
        end
    | _ => (Raise (AttributeError name), st)
    end.

(** [o.name = v]. *)
Definition setattr (o : value) (name : string) (v : value) : M unit :=
  λ st,
    match o with
    | VRef l =>
        match st_heap st !! l with
        | Some (OInst cls attrs) =>
            (Ret tt,
             State (<[l := OInst cls (<[name := v]> attrs)]> (st_heap st))
                   (st_trace st))
        | _ => (Raise (AttributeError name), st)
        end
    | _ => (Raise (AttributeError name), st)
    end.

(** [o[key]] with a string key: a dict looks the key up and raises
    [KeyError] when it is absent; lists, strings and [None] raise
    [TypeError]. *)
Definition getitem (o : value) (key : string) : M value :=
  λ st,
    match o with
    | VRef l =>
        match st_heap st !! l with
        | Some (ODict d) =>
            match d !! key with
            | Some v => (Ret v, st)
            | None => (Raise (KeyError key), st)
            end
        | _ => (Raise TypeError, st)
        end
    | _ => (Raise TypeError, st)
    end.

(** [key in o] with a string key: key membership on a dict, element
    membership on a list, substring test on a string. *)
Definition contains (key : string) (o : value) : M bool :=
  λ st,
    match o with
    | VNone => (Raise TypeError, st)
    | VStr s => (Ret (str_contains key s), st)
    | VRef l =>
        match st_heap st !! l with
        | Some (ODict d) => (Ret (bool_decide (is_Some (d !! key))), st)
        | Some (OList xs) => (Ret (bool_decide (VStr key ∈ xs)), st)
        | _ => (Raise TypeError, st)
        end
    end.

(** A method looked up on its receiver, ready to be called. *)
Record bound_method : Type := BoundMethod {
  bm_self : value;
  bm_name : string;
  bm_fun : behaviour;
}.

Section Program.

(** The class table: the methods the collaborators' classes define. *)
Variable methods : string → string → option behaviour.

(** [format(v, '')] for a heap object, as an f-string field calls it. *)
Variable py_format : value → heap → outcome string * heap.

(** [recv.name] for a method: resolved in the class of the receiver. *)
Definition getmethod (recv : value) (name : string) : M bound_method :=
  λ st,
    match recv with
    | VRef l =>
        match st_heap st !! l with
        | Some (OInst cls _) =>
            match methods cls name with
            | Some f => (Ret (BoundMethod recv name f), st)
            | None => (Raise (AttributeError name), st)
            end
        | _ => (Raise (AttributeError name), st)
        end
    | _ => (Raise (AttributeError name), st)
    end.

(** The call itself: the callee runs on the heap, and the call is appended
    to the trace with its outcome. *)
Definition invoke (m : bound_method) (args : list value) : M value :=
  λ st,
    let '(res, h') := bm_fun m (bm_self m) args (st_heap st) in
    (res, State h' (st_trace st ++ [EvCall (bm_self m) (bm_name m) args res])).

(** The replacement field [{query}] of the f-string. *)
Definition format_field (v : value) : M string :=
  λ st,
    match v with
    | VStr s => (Ret s, st)
    | VNone => (Ret "None", st)
    | VRef _ =>
        let '(res, h') := py_format v (st_heap st) in
        (res, State h' (st_trace st))
    end.

(** ** class Retrieval *)

(** [Retrieval.__init__(self, params)]. *)
Definition Retrieval_init (self params : value) : M unit :=
  let! _ := setattr self "params" params in
  let! p := getattr self "params" in
  let! qg := getitem p "query_generation" in
  setattr self "query_generation" qg.

(** [Retrieval.retrieve(self, query)]: the body is [pass]. *)
Definition Retrieval_retrieve (self query : value) : M value :=
  ret VNone.

(** Line 44, right-hand side: [self.query_generation.get_query(conv_list)]. *)
Definition generate_query (self conv_list : value) : M value :=
  let! qg := getattr self "query_generation" in
  let! get_query := getmethod qg "get_query" in
  invoke get_query [conv_list].

(** Line 45: [self.params['logger'].info(f'New query: {query}')].  The
    method is looked up before the argument is built. *)
Definition log_query (self query : value) : M value :=
  let! params := getattr self "params" in
  let! logger := getitem params "logger" in
  let! info := getmethod logger "info" in
  let! text := format_field query in
  invoke info [VStr ("New query: " +:+ text)].

(** Line 46, right-hand side: [self.retrieve(query)], dispatched on the
    class of [self]. *)
Definition call_retrieve (self query : value) : M value :=
  let! retrieve := getmethod self "retrieve" in
  invoke retrieve [query].

(** Line 47, the test: ['reranker' in self.params]. *)
Definition has_reranker (self : value) : M bool :=
  let! params := getattr self "params" in
  contains "reranker" params.

(** Line 48, the returned expression:
    [self.params['reranker'].rerank(query, conv_list, result_list,
    self.params)]. *)
Definition call_reranker (self query conv_list result_list : value) : M value :=
  let! params := getattr self "params" in
  let! reranker := getitem params "reranker" in
  let! rerank := getmethod reranker "rerank" in
  let! params_arg := getattr self "params" in
  invoke rerank [query; conv_list; result_list; params_arg].

(** [Retrieval.get_results(self, conv_list)], lines 44 to 49. *)
Definition get_results (self conv_list : value) : M value :=
  let! query := generate_query self conv_list in
  let! _ := log_query self query in
  let! result_list := call_retrieve self query in
  let! reranked := has_reranker self in
  if reranked : bool then
    call_reranker self query conv_list result_list
  else
    ret result_list.

(** ** class ReRanker *)

(** [ReRanker.__init__(self, params)]. *)
Definition ReRanker_init (self params : value) : M unit :=
  setattr self "params" params.

(** [ReRanker.rerank(self, query, conv_list, result_list, params)]: the
    body is [pass]. *)
Definition ReRanker_rerank (self query conv_list result_list params : value)
  : M value :=
  ret VNone.

End Program.

(** ** Abstract methods

    Both classes derive from [ABC].  A class body is recorded as the names
    it defines under [@abstractmethod] and the names it defines plainly. *)
Record class_body : Type := ClassBody {
  abstract_defs : list string;
  concrete_defs : list string;
}.

(** [class Retrieval(ABC)]: lines 11 and 23 decorate [__init__] and
    [retrieve]; [get_results] is plain. *)
Definition Retrieval_body : class_body :=
  ClassBody ["__init__"; "retrieve"] ["get_results"].

(** [class ReRanker(ABC)]: line 53 decorates [__init__]; [rerank] is
    plain. *)
Definition ReRanker_body : class_body :=
  ClassBody ["__init__"] ["rerank"].

(** [cls.__abstractmethods__] for a class with body [body] and one base,
    which leaves [inherited] abstract: the names the body decorates, and
    the inherited ones it does not define plainly.  (With several bases a
    name is looked up through all of them; that is not covered here.) *)
Definition abstractmethods (inherited : list string) (body : class_body)
  : list string :=
  abstract_defs body ++ filter (λ n, n ∉ concrete_defs body) inherited.

(** [cls(...)]: a class with a method still abstract is not instantiated. *)
Definition instantiate (abstract : list string) : M unit :=
  match abstract with
  | [] => ret tt
  | _ :: _ => raise TypeError
  end.


(** ** Observations on the heap, for the statements *)

(** The value of the data attribute [name] of [self], if any. *)
Definition attr_of (h : heap) (self : value) (name : string) : option value :=
  match self with
  | VRef l =>
      match h !! l with
      | Some (OInst _ attrs) => attrs !! name
      | _ => None
      end
  | _ => None
  end.

(** The parameters bundle of [self]: the dict that [self.params] refers to. *)
Definition bundle_of (h : heap) (self : value) : option (gmap string value) :=
  match attr_of h self "params" with
  | Some (VRef p) =>
      match h !! p with
      | Some (ODict d) => Some d
      | _ => None
      end
  | _ => None
  end.

(** What the f-string field may show for a query: a string shows itself. *)
Definition field_text (query : value) (text : string) : Prop :=
  match query with
  | VStr s => text = s
  | VNone => text = "None"
  | VRef _ => True
  end.

(** [keeps self lp lc h h']: from heap [h] to heap [h'] the attribute
    [self.params] still holds the same reference, and the objects at [lp]
    (the bundle) and [lc] (the conversation list) are the same. *)
Definition keeps (self : value) (lp lc : loc) (h h' : heap) : Prop :=
  attr_of h' self "params" = attr_of h self "params"
  ∧ h' !! lp = h !! lp
  ∧ h' !! lc = h !! lc.
Arguments keeps self (lp lc)%_positive h h'.

(** ** A stub configuration

    The example of the specification: a query generator that answers
    ["weather today"] for any conversation, a logger that keeps the messages
    it receives, an engine that finds two documents for that query, and a
    re-ranker that keeps the second one. *)

Definition stub_get_query : behaviour :=
  λ _ _ h, (Ret (VStr "weather today"), h).

(** The logger appends the message to its record list, at location 6. *)
Definition stub_info : behaviour :=
  λ _ args h,
    match h !! 6%positive with
    | Some (OList xs) => (Ret VNone, <[6%positive := OList (xs ++ args)]> h)
    | _ => (Raise (OtherError "logger closed"), h)
    end.

Definition stub_retrieve : behaviour :=
  λ _ args h,
    if decide (args = [VStr "weather today"])
    then (Ret (VRef 20), h)
    else (Ret (VRef 22), h).

Definition stub_rerank : behaviour :=
  λ _ _ h, (Ret (VRef 21), h).

Definition stub_methods (cls name : string) : option behaviour :=
  if String.eqb cls "StubQueryGeneration" && String.eqb name "get_query"
  then Some stub_get_query
  else if String.eqb cls "StubLogger" && String.eqb name "info"
  then Some stub_info
  else if String.eqb cls "StubEngine" && String.eqb name "retrieve"
  then Some stub_retrieve
  else if String.eqb cls "StubReRanker" && String.eqb name "rerank"
  then Some stub_rerank
  else None.

Definition stub_format : value → heap → outcome string * heap :=
  λ _ h, (Ret "<object>", h).

(** The objects other than the engine and its bundle. *)
Definition stub_objects : list (loc * object) :=
  [ (3%positive, OInst "StubQueryGeneration" ∅);
    (4%positive, OInst "StubLogger" ∅);
    (5%positive, OInst "StubReRanker" ∅);
    (6%positive, OList []);
    (7%positive, OList [VRef 8]);
    (8%positive, OInst "Message" ∅);
    (20%positive, OList [VStr "doc1"; VStr "doc2"]);
    (21%positive, OList [VStr "doc2"]);
    (22%positive, OList []) ].

Definition stub_bundle : gmap string value :=
  {[ "query_generation" := VRef 3; "logger" := VRef 4 ]}.

Definition stub_bundle_reranker : gmap string value :=
  <["reranker" := VRef 5]> stub_bundle.

(** Before construction: the engine at location 1 has no attribute yet, the
    bundle [d] is the dict at location 2. *)
Definition stub_fresh (d : gmap string value) : state :=
  State (list_to_map ((1%positive, OInst "StubEngine" ∅)
                        :: (2%positive, ODict d) :: stub_objects))
        [].

Definition stub_self : value := VRef 1.
Definition stub_params : value := VRef 2.
Definition stub_conv : value := VRef 7.

(** After [StubEngine(params)], whose constructor runs [Retrieval.__init__]. *)
Definition stub_built (d : gmap string value) : state :=
  (Retrieval_init stub_self stub_params (stub_fresh d)).2.

Definition stub_get_results : value → value → M value :=
  get_results stub_methods stub_format.

(** [class StubEngine(Retrieval)] defines [__init__] and [retrieve];
    [class StubReRanker(ReRanker)] defines [__init__] only and inherits
    [rerank]. *)
Definition StubEngine_body : class_body :=
  ClassBody [] ["__init__"; "retrieve"].

Definition StubReRanker_body : class_body :=
  ClassBody [] ["__init__"].

(** The states of the stub run on bundle [d]: after query generation, after
    logging, after retrieval. *)
Definition stub_query : value := VStr "weather today".

Definition stub_st1 (d : gmap string value) : state :=
  (generate_query stub_methods stub_self stub_conv (stub_built d)).2.

Definition stub_st2 (d : gmap string value) : state :=
  (log_query stub_methods stub_format stub_self stub_query (stub_st1 d)).2.

Definition stub_st3 (d : gmap string value) : state :=
  (call_retrieve stub_methods stub_self stub_query (stub_st2 d)).2.

(** ** The calls of one run of [get_results]

    [run_calls self conv res calls]: a run on [self] and [conv] that ends
    with [res] may have issued exactly the calls [calls], in this order.
    Each constructor is one way through the body. *)
Inductive run_calls (self conv : value)
  : outcome value → list event → Prop :=
| calls_none e :
    run_calls self conv (Raise e) []
| calls_query_raised qg e :
    run_calls self conv (Raise e)
      [EvCall qg "get_query" [conv] (Raise e)]
| calls_not_logged qg q e :
    run_calls self conv (Raise e)
      [EvCall qg "get_query" [conv] (Ret q)]
| calls_info_raised qg q lg text e :
    field_text q text →
    run_calls self conv (Raise e)
      [EvCall qg "get_query" [conv] (Ret q);
       EvCall lg "info" [VStr ("New query: " +:+ text)] (Raise e)]
| calls_not_retrieved qg q lg text x e :
    field_text q text →
    run_calls self conv (Raise e)
      [EvCall qg "get_query" [conv] (Ret q);
       EvCall lg "info" [VStr ("New query: " +:+ text)] (Ret x)]
| calls_retrieve_raised qg q lg text x e :
    field_text q text →
    run_calls self conv (Raise e)
      [EvCall qg "get_query" [conv] (Ret q);
       EvCall lg "info" [VStr ("New query: " +:+ text)] (Ret x);
       EvCall self "retrieve" [q] (Raise e)]
| calls_test_raised qg q lg text x r e :
    field_text q text →
    run_calls self conv (Raise e)
      [EvCall qg "get_query" [conv] (Ret q);
       EvCall lg "info" [VStr ("New query: " +:+ text)] (Ret x);
       EvCall self "retrieve" [q] (Ret r)]
| calls_plain qg q lg text x r :
    field_text q text →
    run_calls self conv (Ret r)
      [EvCall qg "get_query" [conv] (Ret q);
       EvCall lg "info" [VStr ("New query: " +:+ text)] (Ret x);
       EvCall self "retrieve" [q] (Ret r)]
| calls_reranked qg q lg text x r rr p res :
    field_text q text →
    run_calls self conv res
      [EvCall qg "get_query" [conv] (Ret q);
       EvCall lg "info" [VStr ("New query: " +:+ text)] (Ret x);
       EvCall self "retrieve" [q] (Ret r);
       EvCall rr "rerank" [q; conv; r; p] res].

(** ** The base [rerank] as an inherited method

    [ReRanker.rerank] is not abstract, so a subclass may leave it as it is.
    In the class table of such a subclass the entry for [rerank] is the
    base body, applied to the four positional arguments. *)
Definition ReRanker_rerank_method : behaviour :=
  λ self args h,
    match args with
    | [query; conv_list; result_list; params] =>
        let '(res, st') :=
          ReRanker_rerank self query conv_list result_list params
            (State h []) in
        (res, st_heap st')
    | _ => (Raise TypeError, h)
    end.

(** The stub configuration with a re-ranker class that defines [__init__]
    only. *)
Definition inheriting_methods (cls name : string) : option behaviour :=
  if String.eqb cls "StubReRanker" && String.eqb name "rerank"
  then Some ReRanker_rerank_method
  else stub_methods cls name.

(** The bundle dict is the same object in both heaps. *)
Definition same_bundle (h h' : heap) : Prop :=
  h' !! 2%positive = h !! 2%positive.

(** ** What the logger receives

    A logger that keeps what it is given makes the [info] calls it
    receives, from whatever caller, visible in the heap: [records_at r f]
    says that the method [f] appends its arguments to the list at [r], and
    [leaves_record r f] that [f] leaves that list as it is, so that it
    contains no call to such a logger. *)
Definition records_at (r : loc) (f : behaviour) : Prop :=
  ∀ recv args h xs,
    h !! r = Some (OList xs) →
    (f recv args h).2 !! r = Some (OList (xs ++ args)).

Definition leaves_record (r : loc) (f : behaviour) : Prop :=
  ∀ recv args h, (f recv args h).2 !! r = h !! r.

Arguments records_at r%_positive f.
Arguments leaves_record r%_positive f.

(** An engine whose [retrieve] logs on its own account before it looks the
    documents up:
    [self.params['logger'].info('retrieving'); return ...]. *)
Definition logging_retrieve : behaviour :=
  λ self args h,
    match stub_info (VRef 4) [VStr "retrieving"] h with
    | (Ret _, h') => stub_retrieve self args h'
    | (Raise e, h') => (Raise e, h')
    end.

Definition logging_methods (cls name : string) : option behaviour :=
  if String.eqb cls "StubEngine" && String.eqb name "retrieve"
  then Some logging_retrieve
  else stub_methods cls name.

(** ** Descendants by single inheritance

    [cls.__abstractmethods__] for the last class of a chain of classes,
    each with the one before as its only base and the first with [base] as
    its only base. *)
Definition chain_abstractmethods (base : class_body)
    (chain : list class_body) : list string :=
  foldl abstractmethods (abstractmethods [] base) chain.

(** * Properties *)

Section Properties.

Variable methods : string → string → option behaviour.
Variable py_format : value → heap → outcome string * heap.

(** Reads leave the state alone. *)
Lemma getattr_state o name st : (getattr o name st).2 = st.
Proof. unfold getattr. repeat case_match; reflexivity. Qed.

Lemma getitem_state o key st : (getitem o key st).2 = st.
Proof. unfold getitem. repeat case_match; reflexivity. Qed.

Lemma contains_state key o st : (contains key o st).2 = st.
Proof. unfold contains. repeat case_match; reflexivity. Qed.

Lemma getmethod_state recv name st : (getmethod methods recv name st).2 = st.
Proof. unfold getmethod. repeat case_match; reflexivity. Qed.

Lemma getmethod_ret recv name m st st' :
  getmethod methods recv name st = (Ret m, st') →
  bm_self m = recv ∧ bm_name m = name ∧ st' = st.
Proof.
  unfold getmethod. intros H. repeat case_match; simplify_eq. done.
Qed.

Lemma format_field_text v text st st' :
  format_field py_format v st = (Ret text, st') →
  field_text v text ∧ st_trace st' = st_trace st.
Proof.
  unfold format_field. intros H.
  destruct v; simpl; [by simplify_eq..|].
  destruct (py_format _ _); by simplify_eq.
Qed.

Lemma format_field_trace v st :
  st_trace (format_field py_format v st).2 = st_trace st.
Proof.
  unfold format_field. destruct v; try done. by destruct (py_format _ _).
Qed.

Lemma getattr_inv o name st r st' : getattr o name st = (r, st') → st' = st.
Proof. intros H. by rewrite <- (getattr_state o name st), H. Qed.

Lemma getitem_inv o key st r st' : getitem o key st = (r, st') → st' = st.
Proof. intros H. by rewrite <- (getitem_state o key st), H. Qed.

Lemma contains_inv key o st r st' : contains key o st = (r, st') → st' = st.
Proof. intros H. by rewrite <- (contains_state key o st), H. Qed.

Lemma getmethod_inv recv name st r st' :
  getmethod methods recv name st = (r, st') → st' = st.
Proof. intros H. by rewrite <- (getmethod_state recv name st), H. Qed.

(** Replace the state after a read by the state before it. *)
Ltac same_state :=
  repeat match goal with
    | H : getattr _ _ ?st = (_, ?st') |- _ =>
        is_var st'; assert_fails (constr_eq st st');
        pose proof (getattr_inv _ _ _ _ _ H); subst st'
    | H : getitem _ _ ?st = (_, ?st') |- _ =>
        is_var st'; assert_fails (constr_eq st st');
        pose proof (getitem_inv _ _ _ _ _ H); subst st'
    | H : contains _ _ ?st = (_, ?st') |- _ =>
        is_var st'; assert_fails (constr_eq st st');
        pose proof (contains_inv _ _ _ _ _ H); subst st'
    | H : getmethod _ _ _ ?st = (_, ?st') |- _ =>
        is_var st'; assert_fails (constr_eq st st');
        pose proof (getmethod_inv _ _ _ _ _ H); subst st'
    end.

(** Name the result [x] of the next read or lookup of the goal, with its
    equation [E]. *)
Ltac next_read x E :=
  match goal with
  | |- context [getattr ?o ?n ?st] =>
      destruct (getattr o n st) as [[x|?e] ?st] eqn:E
  | |- context [getitem ?o ?k ?st] =>
      destruct (getitem o k st) as [[x|?e] ?st] eqn:E
  | |- context [contains ?k ?o ?st] =>
      destruct (contains k o st) as [[x|?e] ?st] eqn:E
  | |- context [getmethod ?ms ?o ?n ?st] =>
      destruct (getmethod ms o n st) as [[x|?e] ?st] eqn:E
  end; same_state; simpl.

Lemma invoke_eq m args st :
  invoke m args st
  = ((bm_fun m (bm_self m) args (st_heap st)).1,
     State (bm_fun m (bm_self m) args (st_heap st)).2
           (st_trace st
              ++ [EvCall (bm_self m) (bm_name m) args
                         (bm_fun m (bm_self m) args (st_heap st)).1])).
Proof. unfold invoke. by destruct (bm_fun _ _ _ _). Qed.

(** ** What the bundle observations give the reads *)

Lemma attr_of_getattr self name v st :
  attr_of (st_heap st) self name = Some v →
  getattr self name st = (Ret v, st).
Proof.
  unfold attr_of, getattr. intros H.
  repeat case_match; by simplify_eq.
Qed.

Lemma bundle_of_params self d st :
  bundle_of (st_heap st) self = Some d →
  ∃ lp, attr_of (st_heap st) self "params" = Some (VRef lp)
        ∧ st_heap st !! lp = Some (ODict d).
Proof.
  unfold bundle_of. intros H.
  repeat case_match; simplify_eq. eauto.
Qed.

Lemma bundle_of_getitem self d key lp st :
  attr_of (st_heap st) self "params" = Some (VRef lp) →
  st_heap st !! lp = Some (ODict d) →
  getitem (VRef lp) key st
  = (match d !! key with
     | Some v => Ret v
     | None => Raise (KeyError key)
     end, st).
Proof.
  intros _ Hd. unfold getitem. rewrite Hd. by destruct (d !! key).
Qed.

Lemma bundle_of_has_reranker self d st :
  bundle_of (st_heap st) self = Some d →
  has_reranker self st = (Ret (bool_decide (is_Some (d !! "reranker"))), st).
Proof.
  intros (lp & Hp & Hd)%bundle_of_params.
  unfold has_reranker, bind. rewrite (attr_of_getattr _ _ _ _ Hp).
  unfold contains. by rewrite Hd.
Qed.

Lemma getattr_ret self name v st st' :
  getattr self name st = (Ret v, st') →
  attr_of (st_heap st) self name = Some v.
Proof.
  unfold attr_of, getattr. intros H.
  repeat case_match; by simplify_eq.
Qed.

Lemma getitem_ret o key v st st' :
  getitem o key st = (Ret v, st') →
  ∃ lp d,
    o = VRef lp ∧ st_heap st !! lp = Some (ODict d) ∧ d !! key = Some v.
Proof.
  unfold getitem. intros H.
  repeat case_match; simplify_eq. eauto.
Qed.

Lemma bundle_of_intro self lp d h :
  attr_of h self "params" = Some (VRef lp) →
  h !! lp = Some (ODict d) →
  bundle_of h self = Some d.
Proof. unfold bundle_of. by intros -> ->. Qed.

(** Each statement of the body issues at most one call; when it issues
    none it raises, and what it returns is what the call returned.  The
    receiver is the object the statement names. *)
Lemma generate_query_calls self conv st :
  (∃ e, (generate_query methods self conv st).1 = Raise e
        ∧ st_trace (generate_query methods self conv st).2 = st_trace st)
  ∨ (∃ qg,
        attr_of (st_heap st) self "query_generation" = Some qg
        ∧ st_trace (generate_query methods self conv st).2
          = st_trace st
              ++ [EvCall qg "get_query" [conv]
                         (generate_query methods self conv st).1]).
Proof.
  unfold generate_query, bind.
  next_read qg Eqg; [|left; eauto].
  next_read m Em; [|left; eauto].
  apply getmethod_ret in Em as (<- & Hn & _).
  right. exists (bm_self m). split; [by eapply getattr_ret|].
  rewrite invoke_eq. simpl. by rewrite Hn.
Qed.

Lemma log_query_calls self q st :
  (∃ e, (log_query methods py_format self q st).1 = Raise e
        ∧ st_trace (log_query methods py_format self q st).2 = st_trace st)
  ∨ (∃ d lg text,
        bundle_of (st_heap st) self = Some d
        ∧ d !! "logger" = Some lg
        ∧ field_text q text
        ∧ st_trace (log_query methods py_format self q st).2
          = st_trace st
              ++ [EvCall lg "info" [VStr ("New query: " +:+ text)]
                         (log_query methods py_format self q st).1]).
Proof.
  unfold log_query, bind.
  next_read p Ep; [|left; eauto].
  next_read lg Elg; [|left; eauto].
  next_read m Em; [|left; eauto].
  apply getmethod_ret in Em as (<- & Hn & _).
  apply getattr_ret in Ep. apply getitem_ret in Elg as (lp & d & -> & Hd & Hlg).
  destruct (format_field py_format q st) as [[text|e] st1] eqn:E2.
  - apply format_field_text in E2 as [Ht Htr].
    right. exists d, (bm_self m), text.
    split; [by eapply bundle_of_intro|]. do 2 (split; [done|]).
    rewrite invoke_eq. simpl. by rewrite Hn, Htr.
  - left. exists e. split; [done|]. simpl.
    by rewrite <- (format_field_trace q st), E2.
Qed.

Lemma call_retrieve_calls self q st :
  (∃ e, (call_retrieve methods self q st).1 = Raise e
        ∧ st_trace (call_retrieve methods self q st).2 = st_trace st)
  ∨ st_trace (call_retrieve methods self q st).2
    = st_trace st
        ++ [EvCall self "retrieve" [q] (call_retrieve methods self q st).1].
Proof.
  unfold call_retrieve, bind.
  next_read m Em; [|left; eauto].
  apply getmethod_ret in Em as (<- & Hn & _).
  right. rewrite invoke_eq. simpl. by rewrite Hn.
Qed.

Lemma has_reranker_state self st : (has_reranker self st).2 = st.
Proof.
  unfold has_reranker, bind.
  next_read p Ep; [|done]. next_read b Eb; done.
Qed.

Lemma call_reranker_calls self q conv r st :
  (∃ e, (call_reranker methods self q conv r st).1 = Raise e
        ∧ st_trace (call_reranker methods self q conv r st).2 = st_trace st)
  ∨ (∃ d rr p,
        bundle_of (st_heap st) self = Some d
        ∧ d !! "reranker" = Some rr
        ∧ attr_of (st_heap st) self "params" = Some p
        ∧ st_trace (call_reranker methods self q conv r st).2
          = st_trace st
              ++ [EvCall rr "rerank" [q; conv; r; p]
                         (call_reranker methods self q conv r st).1]).
Proof.
  unfold call_reranker, bind.
  next_read p Ep; [|left; eauto].
  next_read rr Err; [|left; eauto].
  next_read m Em; [|left; eauto].
  apply getmethod_ret in Em as (<- & Hn & _).
  rewrite Ep. simpl.
  apply getattr_ret in Ep. apply getitem_ret in Err as (lp & d & -> & Hd & Hrr).
  right. exists d, (bm_self m), (VRef lp).
  split; [by eapply bundle_of_intro|]. do 2 (split; [done|]).
  rewrite invoke_eq. simpl. by rewrite Hn.
Qed.

(** Every run of [get_results] extends the trace by one of the nine call
    sequences of [run_calls]. *)
Lemma get_results_calls self conv st :
  ∃ calls,
    st_trace (get_results methods py_format self conv st).2
    = st_trace st ++ calls
    ∧ run_calls self conv
        (get_results methods py_format self conv st).1 calls.
Proof.
  unfold get_results, bind.
  pose proof (generate_query_calls self conv st) as H1.
  destruct (generate_query methods self conv st) as [[q|e] st1]; simpl in *;
    [|destruct H1 as [(? & _ & ->)|(qg & _ & ->)]; eexists; split;
      try done; try (by rewrite app_nil_r); constructor].
  destruct H1 as [(? & ? & _)|(qg & _ & H1)]; [done|].
  pose proof (log_query_calls self q st1) as H2.
  destruct (log_query methods py_format self q st1) as [[x|e] st2];
    simpl in *; rewrite H1 in H2;
    [|destruct H2 as [(? & _ & ->)|(? & lg & text & _ & _ & Ht & ->)];
      eexists;
      (split; [by rewrite <- ?app_assoc|]); by constructor].
  destruct H2 as [(? & ? & _)|(? & lg & text & _ & _ & Ht & H2)]; [done|].
  pose proof (call_retrieve_calls self q st2) as H3.
  destruct (call_retrieve methods self q st2) as [[r|e] st3];
    simpl in *; rewrite H2 in H3;
    [|destruct H3 as [(? & _ & ->)| ->]; eexists;
      (split; [by rewrite <- ?app_assoc|]); by econstructor].
  destruct H3 as [(? & ? & _)|H3]; [done|].
  pose proof (has_reranker_state self st3) as H4.
  destruct (has_reranker self st3) as [[[]|e] st4]; simpl in *; subst st4.
  - pose proof (call_reranker_calls self q conv r st3) as H5.
    destruct (call_reranker methods self q conv r st3) as [res st5];
      simpl in *; rewrite H3 in H5.
    destruct H5 as [(e & -> & ->)|(? & rr & p & _ & _ & _ & ->)]; eexists;
      (split; [by rewrite <- ?app_assoc|]); by econstructor.
  - unfold ret. eexists. (split; [by rewrite H3, <- ?app_assoc|]).
    by econstructor.
  - eexists. (split; [by rewrite H3, <- ?app_assoc|]). by econstructor.
Qed.

(** ** Construction *)

(** A constructor that returns has stored its argument in [self.params]
    and the bundle's query generator in [self.query_generation]. *)
Lemma Retrieval_init_attrs self bundle st st' :
  Retrieval_init self bundle st = (Ret tt, st') →
  attr_of (st_heap st') self "params" = Some bundle
  ∧ ∃ d, bundle_of (st_heap st') self = Some d
         ∧ attr_of (st_heap st') self "query_generation"
           = d !! "query_generation"
         ∧ st_trace st' = st_trace st.
Proof.
  unfold Retrieval_init, bind, setattr, getattr, getitem, bundle_of, attr_of.
  intros H. destruct self as [| |l]; try done.
  destruct (st_heap st !! l) as [[| |cls attrs]|] eqn:Hl; try done.
  simpl in H. rewrite lookup_insert_eq in H. rewrite lookup_insert_eq in H.
  destruct bundle as [| |p]; try done. simpl in H.
  destruct (decide (l = p)) as [->|Hne].
  { rewrite lookup_insert_eq in H. done. }
  rewrite lookup_insert_ne in H by done.
  destruct (st_heap st !! p) as [[d| |]|] eqn:Hp; try done.
  destruct (d !! "query_generation") as [qg|] eqn:Hqg; try done.
  simpl in H. rewrite lookup_insert_eq in H. simplify_eq. simpl.
  rewrite lookup_insert_eq. rewrite lookup_insert_ne by done.
  rewrite lookup_insert_eq. rewrite lookup_insert_ne by done.
  rewrite lookup_insert_ne by done. rewrite Hp.
  rewrite lookup_insert_eq. eauto.
Qed.

(** C3.  On an instance [l] and a bundle dict [p] without the key
    ['query_generation'], [Retrieval.__init__] raises
    [KeyError('query_generation')].  It has set [self.params] and nothing
    else; the trace is as before, so no collaborator and in particular no
    [retrieve] was called. *)
Theorem Retrieval_init_missing_query_generation
    (l p : loc) (cls : string) (attrs d : gmap string value) (st : state) :
  st_heap st !! l = Some (OInst cls attrs) →
  st_heap st !! p = Some (ODict d) →
  d !! "query_generation" = None →
  Retrieval_init (VRef l) (VRef p) st
  = (Raise (KeyError "query_generation"),
     State (<[l := OInst cls (<["params" := VRef p]> attrs)]> (st_heap st))
           (st_trace st))
  ∧ st_trace (Retrieval_init (VRef l) (VRef p) st).2 = st_trace st.
Proof.
  intros Hl Hp Hno.
  assert (l ≠ p) as Hne by congruence.
  assert (Retrieval_init (VRef l) (VRef p) st
          = (Raise (KeyError "query_generation"),
             State (<[l := OInst cls (<["params" := VRef p]> attrs)]>
                      (st_heap st))
                   (st_trace st))) as ->; [|done].
  unfold Retrieval_init, bind, setattr, getattr, getitem.
  rewrite Hl. simpl. rewrite lookup_insert_eq, lookup_insert_eq. simpl.
  rewrite lookup_insert_ne by done. by rewrite Hp, Hno.
Qed.

Section AfterQuery.

(** A run whose query generation returns [query] and leaves [st1]. *)
Variables (self conv : value) (st0 : state).
Variables (query : value) (st1 : state).
Hypothesis Hquery : generate_query methods self conv st0 = (Ret query, st1).

(** C4.  When the bundle has no ['logger'] key once the query is generated,
    [get_results] raises [KeyError('logger')] in the very state query
    generation left: the only call issued is [get_query], so [retrieve] is
    never called. *)
Theorem get_results_missing_logger (d : gmap string value) :
  bundle_of (st_heap st1) self = Some d →
  d !! "logger" = None →
  get_results methods py_format self conv st0 = (Raise (KeyError "logger"), st1)
  ∧ ∃ qg, st_trace st1
          = st_trace st0 ++ [EvCall qg "get_query" [conv] (Ret query)].
Proof.
  intros (lp & Hp & Hd)%bundle_of_params Hno. split.
  - unfold get_results, bind. rewrite Hquery.
    unfold log_query, bind. rewrite (attr_of_getattr _ _ _ _ Hp).
    rewrite (bundle_of_getitem self d "logger" lp st1 Hp Hd).
    by rewrite Hno.
  - destruct (generate_query_calls self conv st0)
      as [(e & He & _)|(qg & _ & Hq)];
      rewrite Hquery in *; simpl in *; [done|eauto].
Qed.

Section AfterRetrieve.

(** ... whose logging returns and leaves [st2], and whose [retrieve]
    returns [result_list] and leaves [st3], where the bundle is [d]. *)
Variables (logged : value) (st2 : state).
Hypothesis Hlog :
  log_query methods py_format self query st1 = (Ret logged, st2).
Variables (result_list : value) (st3 : state).
Hypothesis Hretrieve :
  call_retrieve methods self query st2 = (Ret result_list, st3).
Variable d : gmap string value.
Hypothesis Hbundle : bundle_of (st_heap st3) self = Some d.

Lemma get_results_after_retrieve :
  get_results methods py_format self conv st0
  = if bool_decide (is_Some (d !! "reranker"))
    then call_reranker methods self query conv result_list st3
    else (Ret result_list, st3).
Proof.
  unfold get_results, bind. rewrite Hquery, Hlog, Hretrieve.
  rewrite (bundle_of_has_reranker _ _ _ Hbundle).
  by case_bool_decide.
Qed.

Lemma call_reranker_present (rr p : value) (rerank : bound_method) :
  d !! "reranker" = Some rr →
  attr_of (st_heap st3) self "params" = Some p →
  getmethod methods rr "rerank" st3 = (Ret rerank, st3) →
  call_reranker methods self query conv result_list st3
  = invoke rerank [query; conv; result_list; p] st3.
Proof.
  intros Hrr Hp Hm.
  destruct (bundle_of_params _ _ _ Hbundle) as (lp & Hp' & Hd).
  assert (p = VRef lp) as -> by congruence.
  unfold call_reranker, bind. rewrite (attr_of_getattr _ _ _ _ Hp).
  rewrite (bundle_of_getitem self d "reranker" lp st3 Hp Hd), Hrr, Hm.
  by rewrite (attr_of_getattr _ _ _ _ Hp).
Qed.

(** C1.  With no ['reranker'] key in the bundle, [get_results] returns
    exactly the list that [self.retrieve(query)] returned, for the query
    that [get_query(conv_list)] returned, and leaves the state that
    [retrieve] left. *)
Theorem get_results_without_reranker :
  d !! "reranker" = None →
  get_results methods py_format self conv st0 = (Ret result_list, st3).
Proof.
  intros Hno. rewrite get_results_after_retrieve.
  rewrite bool_decide_eq_false_2; [done|].
  rewrite Hno. by intros [? ?].
Qed.

(** C2.  With a ['reranker'] key in the bundle, [get_results] is the call
    [rerank(query, conv_list, result_list, params)] on the object under that
    key: it returns (or raises) what that call does, whatever [retrieve]
    returned. *)
Theorem get_results_with_reranker (rr p : value) (rerank : bound_method) :
  d !! "reranker" = Some rr →
  attr_of (st_heap st3) self "params" = Some p →
  getmethod methods rr "rerank" st3 = (Ret rerank, st3) →
  get_results methods py_format self conv st0
  = invoke rerank [query; conv; result_list; p] st3
  ∧ (get_results methods py_format self conv st0).1
    = (bm_fun rerank rr [query; conv; result_list; p] (st_heap st3)).1.
Proof.
  intros Hrr Hp Hm. rewrite get_results_after_retrieve.
  rewrite bool_decide_eq_true_2 by (rewrite Hrr; eauto).
  rewrite (call_reranker_present rr p rerank Hrr Hp Hm).
  split; [done|].
  apply getmethod_ret in Hm as (<- & _ & _).
  by rewrite invoke_eq.
Qed.

(** C9.  The fourth argument of the [rerank] call is [self.params] itself:
    for an instance built by [Retrieval.__init__] on [bundle], whose
    [params] attribute is still the one the constructor stored, the call
    recorded is [rerank(query, conv_list, result_list, bundle)], and
    [bundle] refers to the whole dict [d], the one that holds the
    ['reranker'] entry (and every other entry). *)
Theorem get_results_passes_own_bundle
    (bundle : value) (st_new st_built : state)
    (rr : value) (rerank : bound_method) :
  Retrieval_init self bundle st_new = (Ret tt, st_built) →
  attr_of (st_heap st3) self "params"
  = attr_of (st_heap st_built) self "params" →
  d !! "reranker" = Some rr →
  getmethod methods rr "rerank" st3 = (Ret rerank, st3) →
  (∃ lp, bundle = VRef lp ∧ st_heap st3 !! lp = Some (ODict d))
  ∧ ∃ res,
      st_trace (get_results methods py_format self conv st0).2
      = st_trace st3
          ++ [EvCall rr "rerank" [query; conv; result_list; bundle] res].
Proof.
  intros Hinit Hsame Hrr Hm.
  apply Retrieval_init_attrs in Hinit as [Hstored _].
  rewrite Hstored in Hsame.
  destruct (bundle_of_params _ _ _ Hbundle) as (lp & Hp & Hd).
  assert (bundle = VRef lp) as -> by congruence.
  split; [eauto|].
  rewrite get_results_after_retrieve.
  rewrite bool_decide_eq_true_2 by (rewrite Hrr; eauto).
  rewrite (call_reranker_present rr (VRef lp) rerank Hrr Hp Hm).
  apply getmethod_ret in Hm as (<- & Hn & _).
  rewrite invoke_eq. simpl. rewrite Hn. eauto.
Qed.

End AfterRetrieve.

End AfterQuery.

(** ** The logged message *)

Lemma prefix_refl (s : string) : String.prefix s s = true.
Proof.
  induction s as [|c s IH]; [done|]. simpl.
  by destruct (Ascii.ascii_dec c c).
Qed.

Lemma str_contains_suffix (pre s : string) :
  str_contains s (pre +:+ s) = true.
Proof.
  induction pre as [|c pre IH]; simpl.
  - destruct s; simpl; [done|]. rewrite prefix_refl.
    by destruct (Ascii.ascii_dec _ _).
  - rewrite IH. apply orb_true_r.
Qed.

(** A call of [get_results] that returns has itself issued exactly one
    [info] call.  Its receiver is the ['logger'] entry of the bundle, its
    message is ["New query: "] followed by the text of the query that the
    query generator returned for [conv_list] (the query itself when it is a
    string), so the message contains that text.  Calls that a collaborator
    makes to the logger on its own account are not counted here. *)
Theorem get_results_logs_query_once self conv st v :
  (get_results methods py_format self conv st).1 = Ret v →
  ∃ qg q st1 d lg text x calls,
    attr_of (st_heap st) self "query_generation" = Some qg
    ∧ generate_query methods self conv st = (Ret q, st1)
    ∧ bundle_of (st_heap st1) self = Some d
    ∧ d !! "logger" = Some lg
    ∧ field_text q text
    ∧ st_trace (get_results methods py_format self conv st).2
      = st_trace st ++ calls
    ∧ head calls = Some (EvCall qg "get_query" [conv] (Ret q))
    ∧ filter (λ e, ev_name e = "info") calls
      = [EvCall lg "info" [VStr ("New query: " +:+ text)] (Ret x)]
    ∧ str_contains text ("New query: " +:+ text) = true.
Proof.
  unfold get_results, bind.
  pose proof (generate_query_calls self conv st) as H1.
  destruct (generate_query methods self conv st) as [[q|e] st1];
    cbn [fst snd] in *; [|done].
  destruct H1 as [(? & ? & _)|(qg & Hqg & H1)]; [done|].
  pose proof (log_query_calls self q st1) as H2.
  destruct (log_query methods py_format self q st1) as [[x|e] st2];
    cbn [fst snd] in *; [|done].
  destruct H2 as [(? & ? & _)|(d & lg & text & Hd & Hlg & Ht & H2)]; [done|].
  pose proof (call_retrieve_calls self q st2) as H3.
  destruct (call_retrieve methods self q st2) as [[r|e] st3];
    cbn [fst snd] in *; [|done].
  destruct H3 as [(? & ? & _)|H3]; [done|].
  pose proof (has_reranker_state self st3) as H4.
  destruct (has_reranker self st3) as [[[]|e] st4];
    cbn [fst snd] in *; subst st4;
    [| |done]; intros Hv.
  - pose proof (call_reranker_calls self q conv r st3) as H5.
    destruct (call_reranker methods self q conv r st3) as [res st5];
      cbn [fst snd] in *. subst res.
    destruct H5 as [(? & ? & _)|(? & rr & p & _ & _ & _ & H5)]; [done|].
    exists qg, q, st1, d, lg, text, x. eexists.
    do 5 (split; [done|]).
    split; [by rewrite H5, H3, H2, H1, <- !app_assoc|].
    split; [done|]. split; [done|]. apply str_contains_suffix.
  - unfold ret in *. cbn [fst snd] in *.
    exists qg, q, st1, d, lg, text, x. eexists.
    do 5 (split; [done|]).
    split; [by rewrite H3, H2, H1, <- !app_assoc|].
    split; [done|]. split; [done|]. apply str_contains_suffix.
Qed.

(** C10.  In every run of [get_results], whether it returns or raises: a
    [retrieve] or [rerank] call in the trace, whatever its own outcome, comes
    after an [info] call that returned and that carried the text of the
    generated query, and no [info] call comes at or after it. *)
Theorem get_results_logs_before_retrieve self conv st :
  ∃ calls,
    st_trace (get_results methods py_format self conv st).2
    = st_trace st ++ calls
    ∧ ∀ before ev after,
        calls = before ++ ev :: after →
        ev_name ev = "retrieve" ∨ ev_name ev = "rerank" →
        (∃ qg q lg text x,
            EvCall qg "get_query" [conv] (Ret q) ∈ before
            ∧ field_text q text
            ∧ EvCall lg "info" [VStr ("New query: " +:+ text)] (Ret x)
              ∈ before)
        ∧ Forall (λ e, ev_name e ≠ "info") (ev :: after).
Proof.
  destruct (get_results_calls self conv st) as (calls & Htrace & Hcalls).
  exists calls. split; [done|].
  intros before ev after Heq Hname.
  destruct Hcalls;
    repeat (destruct before as [|? before]; simplify_eq/=);
    destruct Hname as [Hname|Hname]; simplify_eq/=;
    (split;
       [ do 5 eexists;
         split; [apply list_elem_of_here|];
         split; [eassumption|];
         apply list_elem_of_further, list_elem_of_here
       | repeat constructor; done ]).
Qed.

(** ** Frame *)

Lemma getmethod_table recv name m st st' :
  getmethod methods recv name st = (Ret m, st') →
  ∃ cls, methods cls name = Some (bm_fun m).
Proof.
  unfold getmethod. intros H. repeat case_match; simplify_eq. simpl. eauto.
Qed.

Section Frame.

(** Whatever relation between heaps every collaborator method other than
    [rerank] and the formatting of the query respect, the three statements
    before the re-ranking test respect it too: they write nothing
    themselves. *)
Variable R : heap → heap → Prop.
Hypothesis R_refl : ∀ h, R h h.
Hypothesis R_trans : ∀ h1 h2 h3, R h1 h2 → R h2 h3 → R h1 h3.
Hypothesis methods_R :
  ∀ cls name f, methods cls name = Some f → name ≠ "rerank" →
    ∀ recv args h, R h (f recv args h).2.
Hypothesis format_R : ∀ v h, R h (py_format v h).2.

Lemma invoke_frame recv name m args st st0 :
  getmethod methods recv name st0 = (Ret m, st0) →
  name ≠ "rerank" →
  R (st_heap st) (st_heap (invoke m args st).2).
Proof.
  intros [cls Hm]%getmethod_table Hname. rewrite invoke_eq. simpl.
  by eapply methods_R.
Qed.

Lemma format_field_frame v st :
  R (st_heap st) (st_heap (format_field py_format v st).2).
Proof.
  unfold format_field. destruct v; try apply R_refl.
  specialize (format_R (VRef l) (st_heap st)).
  by destruct (py_format _ _).
Qed.

Lemma generate_query_frame self conv st :
  R (st_heap st) (st_heap (generate_query methods self conv st).2).
Proof.
  unfold generate_query, bind.
  next_read qg Eqg; [|apply R_refl].
  next_read m Em; [|apply R_refl].
  by eapply invoke_frame.
Qed.

Lemma log_query_frame self q st :
  R (st_heap st) (st_heap (log_query methods py_format self q st).2).
Proof.
  unfold log_query, bind.
  next_read p Ep; [|apply R_refl].
  next_read lg Elg; [|apply R_refl].
  next_read m Em; [|apply R_refl].
  pose proof (format_field_frame q st) as Hf.
  destruct (format_field py_format q st) as [[text|e] st1]; simpl in *;
    [|done].
  eapply R_trans; [exact Hf|]. by eapply invoke_frame.
Qed.

Lemma call_retrieve_frame self q st :
  R (st_heap st) (st_heap (call_retrieve methods self q st).2).
Proof.
  unfold call_retrieve, bind.
  next_read m Em; [|apply R_refl].
  by eapply invoke_frame.
Qed.

End Frame.

Lemma keeps_refl self lp lc h : keeps self lp lc h h.
Proof. done. Qed.

Lemma keeps_trans self lp lc h1 h2 h3 :
  keeps self lp lc h1 h2 → keeps self lp lc h2 h3 → keeps self lp lc h1 h3.
Proof.
  intros (?&?&?) (?&?&?). repeat split; congruence.
Qed.

(** C6.  With no re-ranker configured, [get_results] writes neither to the
    parameters bundle nor to the conversation list: when the collaborators
    it calls (any method but [rerank], and the formatting of the query)
    leave the bundle at [lp], the conversation list at [lc] and the
    attribute [self.params] as they are, the dict at [lp] and the list at
    [lc] are the same objects after the call as before, whether the call
    returns or raises. *)
Theorem get_results_keeps_bundle_and_conversation
    (self : value) (lp lc : loc) (d : gmap string value) (st : state) :
  (∀ cls name f, methods cls name = Some f → name ≠ "rerank" →
     ∀ recv args h, keeps self lp lc h (f recv args h).2) →
  (∀ v h, keeps self lp lc h (py_format v h).2) →
  attr_of (st_heap st) self "params" = Some (VRef lp) →
  st_heap st !! lp = Some (ODict d) →
  d !! "reranker" = None →
  st_heap (get_results methods py_format self (VRef lc) st).2 !! lp
  = st_heap st !! lp
  ∧ st_heap (get_results methods py_format self (VRef lc) st).2 !! lc
    = st_heap st !! lc.
Proof.
  intros Hm Hf Hp Hd Hno.
  pose proof (generate_query_frame _ (keeps_refl self lp lc) Hm
                self (VRef lc) st) as K1.
  unfold get_results, bind.
  destruct (generate_query methods self (VRef lc) st) as [[q|e] st1];
    simpl in *; [|by destruct K1 as (_ & ? & ?)].
  pose proof (log_query_frame _ (keeps_refl self lp lc)
                (keeps_trans self lp lc) Hm Hf self q st1) as K2.
  pose proof (keeps_trans _ _ _ _ _ _ K1 K2) as K12.
  destruct (log_query methods py_format self q st1) as [[x|e] st2];
    simpl in *; [|by destruct K12 as (_ & ? & ?)].
  pose proof (call_retrieve_frame _ (keeps_refl self lp lc) Hm self q st2)
    as K3.
  pose proof (keeps_trans _ _ _ _ _ _ K12 K3) as K.
  destruct (call_retrieve methods self q st2) as [[r|e] st3];
    simpl in *; [|by destruct K as (_ & ? & ?)].
  destruct K as (Kp & Klp & Klc).
  assert (bundle_of (st_heap st3) self = Some d) as Hb.
  { apply (bundle_of_intro self lp); congruence. }
  rewrite (bundle_of_has_reranker _ _ _ Hb).
  rewrite bool_decide_eq_false_2; [done|].
  rewrite Hno. by intros [? ?].
Qed.

(** ** The base bodies *)

(** C7.  The body of [ReRanker.rerank] is [pass]: whatever the receiver and
    the four arguments, the call returns [None] and changes nothing. *)
Theorem ReRanker_rerank_returns_none
    (self query conv_list result_list params : value) (st : state) :
  ReRanker_rerank self query conv_list result_list params st = (Ret VNone, st).
Proof. reflexivity. Qed.

(** C8, as amended.  Neither base body fails: invoked directly,
    [Retrieval.retrieve] and [ReRanker.rerank] both return [None], for every
    input, and change nothing.  What fails at once, with [TypeError], is the
    instantiation of either base type, each of which has a method still
    abstract. *)
Theorem base_bodies_return_none
    (self query conv_list result_list params : value) (st : state) :
  Retrieval_retrieve self query st = (Ret VNone, st)
  ∧ ReRanker_rerank self query conv_list result_list params st
    = (Ret VNone, st)
  ∧ instantiate (abstractmethods [] Retrieval_body) st = (Raise TypeError, st)
  ∧ instantiate (abstractmethods [] ReRanker_body) st = (Raise TypeError, st).
Proof. repeat split; reflexivity. Qed.

(** ** What the logger receives during a call *)

Section LoggerRecord.

(** Every [info] method keeps what it is given in the list at [r]; no other
    method and no formatting writes that list, that is, none of them calls
    the logger on its own account. *)
Variable r : loc.
Hypothesis info_records :
  ∀ cls f, methods cls "info" = Some f → records_at r f.
Hypothesis others_leave :
  ∀ cls name f, methods cls name = Some f → name ≠ "info" →
    leaves_record r f.
Hypothesis format_leaves : ∀ v h, (py_format v h).2 !! r = h !! r.

Lemma generate_query_record self conv st :
  st_heap (generate_query methods self conv st).2 !! r = st_heap st !! r.
Proof.
  unfold generate_query, bind.
  next_read qg Eqg; [|done].
  next_read m Em; [|done].
  apply getmethod_table in Em as [cls Hm].
  rewrite invoke_eq. simpl. by apply (others_leave _ _ _ Hm).
Qed.

Lemma call_retrieve_record self q st :
  st_heap (call_retrieve methods self q st).2 !! r = st_heap st !! r.
Proof.
  unfold call_retrieve, bind.
  next_read m Em; [|done].
  apply getmethod_table in Em as [cls Hm].
  rewrite invoke_eq. simpl. by apply (others_leave _ _ _ Hm).
Qed.

Lemma call_reranker_record self q conv res st :
  st_heap (call_reranker methods self q conv res st).2 !! r
  = st_heap st !! r.
Proof.
  unfold call_reranker, bind.
  next_read p Ep; [|done].
  next_read rr Err; [|done].
  next_read m Em; [|done].
  rewrite Ep. cbn [fst snd].
  apply getmethod_table in Em as [cls Hm].
  rewrite invoke_eq. simpl. by apply (others_leave _ _ _ Hm).
Qed.

Lemma format_field_record v st :
  st_heap (format_field py_format v st).2 !! r = st_heap st !! r.
Proof.
  unfold format_field. destruct v as [| |l]; try done.
  specialize (format_leaves (VRef l) (st_heap st)).
  by destruct (py_format _ _).
Qed.

(** Line 45, when it returns: one message more in the record. *)
Lemma log_query_record self q st x st2 xs :
  log_query methods py_format self q st = (Ret x, st2) →
  st_heap st !! r = Some (OList xs) →
  ∃ d lg text,
    bundle_of (st_heap st) self = Some d
    ∧ d !! "logger" = Some lg
    ∧ field_text q text
    ∧ st_trace st2
      = st_trace st
          ++ [EvCall lg "info" [VStr ("New query: " +:+ text)] (Ret x)]
    ∧ st_heap st2 !! r
      = Some (OList (xs ++ [VStr ("New query: " +:+ text)])).
Proof.
  unfold log_query, bind. intros H Hxs. revert H.
  next_read p Ep; [|done].
  next_read lg Elg; [|done].
  next_read m Em; [|done].
  pose proof (getmethod_table _ _ _ _ _ Em) as [cls Hm].
  apply getmethod_ret in Em as (<- & Hn & _).
  apply getattr_ret in Ep. apply getitem_ret in Elg as (lp & d & -> & Hd & Hlg).
  pose proof (format_field_record q st) as Hrec.
  destruct (format_field py_format q st) as [[text|e] st1] eqn:E2; [|done].
  apply format_field_text in E2 as [Ht Htr]. cbn [fst snd] in Hrec.
  rewrite invoke_eq. intros H. simplify_eq.
  exists d, (bm_self m), text.
  split; [by eapply bundle_of_intro|]. do 2 (split; [done|]).
  cbn [st_trace st_heap]. rewrite Hn, Htr. split; [by rewrite H|].
  apply (info_records _ _ Hm). by rewrite Hrec.
Qed.


End LoggerRecord.

(** * Further properties *)

(** ** Construction, continued *)

Lemma attr_of_insert_ne (h : heap) (l l' : loc) (o : object) (name : string) :
  l ≠ l' → attr_of (<[l := o]> h) (VRef l') name = attr_of h (VRef l') name.
Proof. intros Hne. unfold attr_of. by rewrite lookup_insert_ne. Qed.

Lemma attr_of_insert_eq (h : heap) (l : loc) cls attrs (name : string) :
  attr_of (<[l := OInst cls attrs]> h) (VRef l) name = attrs !! name.
Proof. unfold attr_of. by rewrite lookup_insert_eq. Qed.

Lemma Retrieval_init_state
    (l p : loc) (cls : string) (attrs d : gmap string value) (qg : value)
    (st : state) :
  st_heap st !! l = Some (OInst cls attrs) →
  st_heap st !! p = Some (ODict d) →
  d !! "query_generation" = Some qg →
  Retrieval_init (VRef l) (VRef p) st
  = (Ret tt,
     State (<[l := OInst cls (<["query_generation" := qg]>
                               (<["params" := VRef p]> attrs))]>
              (st_heap st))
           (st_trace st)).
Proof.
  intros Hl Hp Hqg. assert (l ≠ p) as Hne by congruence.
  unfold Retrieval_init, bind, setattr, getattr, getitem.
  rewrite Hl. simpl. rewrite lookup_insert_eq, lookup_insert_eq. simpl.
  rewrite lookup_insert_ne by done. rewrite Hp, Hqg. simpl.
  rewrite lookup_insert_eq. by rewrite insert_insert_eq.
Qed.

(** [Retrieval.__init__] on an instance and a dict with a
    ['query_generation'] entry returns, whatever else the dict holds (a
    ['logger'] entry is not asked for).  It stores the reference to the
    dict and the generator on the instance, keeps the other attributes and
    every other object, and calls nothing. *)
Theorem Retrieval_init_returns
    (l p : loc) (cls : string) (attrs d : gmap string value) (qg : value)
    (st : state) :
  st_heap st !! l = Some (OInst cls attrs) →
  st_heap st !! p = Some (ODict d) →
  d !! "query_generation" = Some qg →
  ∃ st',
    Retrieval_init (VRef l) (VRef p) st = (Ret tt, st')
    ∧ attr_of (st_heap st') (VRef l) "params" = Some (VRef p)
    ∧ attr_of (st_heap st') (VRef l) "query_generation" = Some qg
    ∧ bundle_of (st_heap st') (VRef l) = Some d
    ∧ (∀ name, name ≠ "params" → name ≠ "query_generation" →
         attr_of (st_heap st') (VRef l) name = attrs !! name)
    ∧ (∀ l', l' ≠ l → st_heap st' !! l' = st_heap st !! l')
    ∧ st_trace st' = st_trace st.
Proof.
  intros Hl Hp Hqg. assert (l ≠ p) as Hne by congruence.
  eexists. split; [by eapply Retrieval_init_state|]. cbn [st_heap st_trace].
  assert (attr_of
            (<[l := OInst cls (<["query_generation" := qg]>
                                (<["params" := VRef p]> attrs))]>
               (st_heap st)) (VRef l) "params" = Some (VRef p)) as Hparams.
  { rewrite attr_of_insert_eq. by rewrite lookup_insert_ne, lookup_insert_eq. }
  split; [done|].
  split; [by rewrite attr_of_insert_eq, lookup_insert_eq|].
  split.
  { apply (bundle_of_intro _ p); [done|]. by rewrite lookup_insert_ne. }
  split.
  { intros name H1 H2. rewrite attr_of_insert_eq.
    by rewrite !lookup_insert_ne. }
  split; [|done].
  intros l' Hl'. by rewrite lookup_insert_ne.
Qed.

(** The bundle is held by reference, not copied: whatever dict is later
    stored at its location is the bundle that [get_results] consults, so an
    entry ['reranker'] added after construction switches re-ranking on. *)
Theorem Retrieval_init_keeps_reference
    (l p : loc) (st st_built : state) (d' : gmap string value)
    (trace : list event) :
  Retrieval_init (VRef l) (VRef p) st = (Ret tt, st_built) →
  bundle_of (<[p := ODict d']> (st_heap st_built)) (VRef l) = Some d'
  ∧ has_reranker (VRef l) (State (<[p := ODict d']> (st_heap st_built)) trace)
    = (Ret (bool_decide (is_Some (d' !! "reranker"))),
       State (<[p := ODict d']> (st_heap st_built)) trace).
Proof.
  intros Hinit.
  apply Retrieval_init_attrs in Hinit as (Hparams & d & Hd & _).
  apply bundle_of_params in Hd as (lp & Hlp & Hdict).
  assert (lp = p) as -> by congruence.
  assert (p ≠ l) as Hne.
  { intros ->. unfold attr_of in Hparams. by rewrite Hdict in Hparams. }
  assert (bundle_of (<[p := ODict d']> (st_heap st_built)) (VRef l) = Some d')
    as Hb.
  { apply (bundle_of_intro _ p).
    - by rewrite attr_of_insert_ne.
    - by rewrite lookup_insert_eq. }
  split; [done|].
  by apply (bundle_of_has_reranker _ _
              (State (<[p := ODict d']> (st_heap st_built)) trace)).
Qed.

(** [ReRanker.__init__] checks nothing: on an instance it returns for every
    [params] value, dict or not, stores it in [self.params], keeps the other
    attributes and every other object, and calls nothing. *)
Theorem ReRanker_init_returns
    (l : loc) (cls : string) (attrs : gmap string value) (params : value)
    (st : state) :
  st_heap st !! l = Some (OInst cls attrs) →
  ∃ st',
    ReRanker_init (VRef l) params st = (Ret tt, st')
    ∧ attr_of (st_heap st') (VRef l) "params" = Some params
    ∧ (∀ name, name ≠ "params" →
         attr_of (st_heap st') (VRef l) name = attrs !! name)
    ∧ (∀ l', l' ≠ l → st_heap st' !! l' = st_heap st !! l')
    ∧ st_trace st' = st_trace st.
Proof.
  intros Hl. unfold ReRanker_init, setattr. rewrite Hl.
  eexists. split; [done|]. cbn [st_heap st_trace].
  split; [by rewrite attr_of_insert_eq, lookup_insert_eq|].
  split.
  { intros name Hname. rewrite attr_of_insert_eq.
    by rewrite lookup_insert_ne. }
  split; [|done].
  intros l' Hl'. by rewrite lookup_insert_ne.
Qed.

(** ** Failures of [get_results] before and between the calls *)

Lemma getattr_missing self name st :
  attr_of (st_heap st) self name = None →
  getattr self name st = (Raise (AttributeError name), st).
Proof.
  unfold attr_of, getattr. intros H.
  repeat case_match; by simplify_eq.
Qed.

Lemma getmethod_not_object recv name st :
  (∀ l, recv ≠ VRef l) →
  getmethod methods recv name st = (Raise (AttributeError name), st).
Proof.
  intros H. unfold getmethod. destruct recv as [| |l]; try done.
  by destruct (H l).
Qed.

(** An instance without the attribute [query_generation], as a subclass
    leaves it when its constructor does not run [Retrieval.__init__], makes
    [get_results] raise [AttributeError] at once: nothing is called and
    nothing changes. *)
Theorem get_results_unconstructed self conv st :
  attr_of (st_heap st) self "query_generation" = None →
  get_results methods py_format self conv st
  = (Raise (AttributeError "query_generation"), st).
Proof.
  intros H. unfold get_results, generate_query, bind.
  by rewrite (getattr_missing _ _ _ H).
Qed.

(** A ['logger'] entry that is [None] or a string makes [get_results] raise
    [AttributeError('info')] in the state query generation left: the query
    is not formatted and [retrieve] is not called. *)
Theorem get_results_logger_not_object
    self conv st0 query st1 (d : gmap string value) (lg : value) :
  generate_query methods self conv st0 = (Ret query, st1) →
  bundle_of (st_heap st1) self = Some d →
  d !! "logger" = Some lg →
  (∀ l, lg ≠ VRef l) →
  get_results methods py_format self conv st0
  = (Raise (AttributeError "info"), st1).
Proof.
  intros Hquery (lp & Hp & Hd)%bundle_of_params Hlg Hno.
  unfold get_results, bind. rewrite Hquery.
  unfold log_query, bind. rewrite (attr_of_getattr _ _ _ _ Hp).
  rewrite (bundle_of_getitem self d "logger" lp st1 Hp Hd), Hlg.
  by rewrite (getmethod_not_object lg "info" st1 Hno).
Qed.

(** The test of line 47 looks at the key only.  A ['reranker'] entry that
    is [None] or a string does not switch re-ranking off: [get_results]
    raises [AttributeError('rerank')] after [retrieve] has returned, and the
    retrieved list is lost. *)
Theorem get_results_reranker_not_object
    self conv st0 query st1 logged st2 result_list st3
    (d : gmap string value) (rr : value) :
  generate_query methods self conv st0 = (Ret query, st1) →
  log_query methods py_format self query st1 = (Ret logged, st2) →
  call_retrieve methods self query st2 = (Ret result_list, st3) →
  bundle_of (st_heap st3) self = Some d →
  d !! "reranker" = Some rr →
  (∀ l, rr ≠ VRef l) →
  get_results methods py_format self conv st0
  = (Raise (AttributeError "rerank"), st3).
Proof.
  intros Hquery Hlog Hretrieve Hbundle Hrr Hno.
  rewrite (get_results_after_retrieve self conv st0 query st1 Hquery
             logged st2 Hlog result_list st3 Hretrieve d Hbundle).
  rewrite bool_decide_eq_true_2 by (rewrite Hrr; eauto).
  destruct (bundle_of_params _ _ _ Hbundle) as (lp & Hp & Hd).
  unfold call_reranker, bind. rewrite (attr_of_getattr _ _ _ _ Hp).
  rewrite (bundle_of_getitem self d "reranker" lp st3 Hp Hd), Hrr.
  by rewrite (getmethod_not_object rr "rerank" st3 Hno).
Qed.

(** A re-ranker whose class inherits [ReRanker.rerank] turns every result
    into [None]: [get_results] returns [None] instead of the retrieved
    list, and the heap is the one [retrieve] left. *)
Theorem get_results_inherited_rerank
    self conv st0 query st1 logged st2 result_list st3
    (d : gmap string value) (lr : loc) (cls : string)
    (attrs : gmap string value) :
  generate_query methods self conv st0 = (Ret query, st1) →
  log_query methods py_format self query st1 = (Ret logged, st2) →
  call_retrieve methods self query st2 = (Ret result_list, st3) →
  bundle_of (st_heap st3) self = Some d →
  d !! "reranker" = Some (VRef lr) →
  st_heap st3 !! lr = Some (OInst cls attrs) →
  methods cls "rerank" = Some ReRanker_rerank_method →
  (get_results methods py_format self conv st0).1 = Ret VNone
  ∧ st_heap (get_results methods py_format self conv st0).2 = st_heap st3.
Proof.
  intros Hquery Hlog Hretrieve Hbundle Hrr Hlr Hm.
  rewrite (get_results_after_retrieve self conv st0 query st1 Hquery
             logged st2 Hlog result_list st3 Hretrieve d Hbundle).
  rewrite bool_decide_eq_true_2 by (rewrite Hrr; eauto).
  destruct (bundle_of_params _ _ _ Hbundle) as (lp & Hp & Hd).
  rewrite (call_reranker_present _ _ _ _ _ _ Hbundle (VRef lr) (VRef lp)
             (BoundMethod (VRef lr) "rerank" ReRanker_rerank_method)
             Hrr Hp).
  - by rewrite invoke_eq.
  - unfold getmethod. by rewrite Hlr, Hm.
Qed.

(** ** The calls of every run *)

(** Split a membership in a list given by its elements. *)
Ltac split_elem H :=
  repeat (apply elem_of_cons in H as [->|H]);
  try (by apply elem_of_nil in H).

(** Find an element in a list given by its elements. *)
Ltac find_elem :=
  first [apply list_elem_of_here | apply list_elem_of_further; find_elem].

(** [get_results] calls the collaborators in one fixed order and each at
    most once: the method names of the calls of a run, returning or
    raising, are an initial part of [get_query], [info], [retrieve],
    [rerank].  A run that returns has made the first three calls at
    least. *)
Theorem get_results_call_order self conv st :
  ∃ calls,
    st_trace (get_results methods py_format self conv st).2
    = st_trace st ++ calls
    ∧ (ev_name <$> calls)
        `prefix_of` ["get_query"; "info"; "retrieve"; "rerank"]
    ∧ ∀ v, (get_results methods py_format self conv st).1 = Ret v →
           (3 ≤ length calls)%nat.
Proof.
  destruct (get_results_calls self conv st) as (calls & Htrace & Hcalls).
  exists calls. split; [done|].
  destruct Hcalls; simpl; (split; [by eexists|]); intros v Hv;
    simplify_eq; simpl; lia.
Qed.

(** No exception of a collaborator is caught or replaced: in every run, a
    call that raised is the last call of the run, and [get_results] raises
    the same exception. *)
Theorem get_results_propagates self conv st :
  ∃ calls,
    st_trace (get_results methods py_format self conv st).2
    = st_trace st ++ calls
    ∧ ∀ before ev after e,
        calls = before ++ ev :: after →
        ev_res ev = Raise e →
        after = []
        ∧ (get_results methods py_format self conv st).1 = Raise e.
Proof.
  destruct (get_results_calls self conv st) as (calls & Htrace & Hcalls).
  exists calls. split; [done|].
  intros before ev after e Heq Hres.
  destruct Hcalls;
    repeat (destruct before as [|? before]; simplify_eq/=);
    done.
Qed.

(** What each collaborator is given, in every run: [get_query] gets the
    conversation list; [retrieve] is called on [self] with the very value
    [get_query] returned (not the logged text); [rerank] gets that value,
    the same conversation list and the very value [retrieve] returned. *)
Theorem get_results_arguments self conv st :
  ∃ calls,
    st_trace (get_results methods py_format self conv st).2
    = st_trace st ++ calls
    ∧ ∀ ev, ev ∈ calls →
        (ev_name ev = "get_query" → ev_args ev = [conv])
        ∧ (ev_name ev = "retrieve" →
             ev_recv ev = self
             ∧ ∃ qg q,
                 EvCall qg "get_query" [conv] (Ret q) ∈ calls
                 ∧ ev_args ev = [q])
        ∧ (ev_name ev = "rerank" →
             ∃ qg q r p,
               EvCall qg "get_query" [conv] (Ret q) ∈ calls
               ∧ EvCall self "retrieve" [q] (Ret r) ∈ calls
               ∧ ev_args ev = [q; conv; r; p]).
Proof.
  destruct (get_results_calls self conv st) as (calls & Htrace & Hcalls).
  exists calls. split; [done|].
  intros ev Hev.
  destruct Hcalls; split_elem Hev; simpl;
    (split; [|split]); intros Hn; simplify_eq/=; try done;
    try (split; [done|]; do 2 eexists; split; [find_elem|done]);
    do 4 eexists; split; [find_elem|]; split; [find_elem|done].
Qed.

(** ** The generator is fixed at construction *)

Lemma setattr_ret o name v st st' :
  setattr o name v st = (Ret tt, st') →
  attr_of (st_heap st') o name = Some v.
Proof.
  unfold setattr, attr_of. intros H.
  repeat case_match; simplify_eq; simpl in *.
  all: rewrite lookup_insert_eq in *; simplify_eq.
  all: by rewrite lookup_insert_eq.
Qed.

Lemma Retrieval_init_generator self bundle st st' :
  Retrieval_init self bundle st = (Ret tt, st') →
  ∃ d qg,
    bundle_of (st_heap st') self = Some d
    ∧ d !! "query_generation" = Some qg
    ∧ attr_of (st_heap st') self "query_generation" = Some qg.
Proof.
  intros H.
  destruct (Retrieval_init_attrs _ _ _ _ H) as (_ & d & Hd & Hqg & _).
  exists d.
  unfold Retrieval_init, bind in H.
  destruct (setattr self "params" bundle st) as [[[]|?] s1]; [|done].
  destruct (getattr self "params" s1) as [[p|?] s2]; [|done].
  destruct (getitem p "query_generation" s2) as [[qg|?] s3]; [|done].
  apply setattr_ret in H.
  exists qg. by rewrite <- Hqg.
Qed.

Lemma get_results_trace_after_query self conv st :
  ∃ rest,
    st_trace (get_results methods py_format self conv st).2
    = st_trace (generate_query methods self conv st).2 ++ rest
    ∧ Forall (λ e, ev_name e ≠ "get_query") rest.
Proof.
  unfold get_results, bind.
  destruct (generate_query methods self conv st) as [[q|e] st1];
    cbn [fst snd];
    [|exists []; split; [by rewrite app_nil_r|constructor]].
  pose proof (log_query_calls self q st1) as H2.
  destruct (log_query methods py_format self q st1) as [[x|e] st2];
    cbn [fst snd] in *;
    [|destruct H2 as [(? & _ & ->)|(? & lg & text & _ & _ & _ & ->)];
      eexists; (split; [first [done|by rewrite app_nil_r]|]);
      by repeat constructor].
  destruct H2 as [(? & ? & _)|(? & lg & text & _ & _ & _ & H2)]; [done|].
  pose proof (call_retrieve_calls self q st2) as H3.
  destruct (call_retrieve methods self q st2) as [[r|e] st3];
    cbn [fst snd] in *; rewrite H2 in H3;
    [|destruct H3 as [(? & _ & ->)| ->]; eexists;
      (split; [by rewrite <- ?app_assoc|]); by repeat constructor].
  destruct H3 as [(? & ? & _)|H3]; [done|].
  pose proof (has_reranker_state self st3) as H4.
  destruct (has_reranker self st3) as [[[]|e] st4];
    cbn [fst snd] in *; subst st4.
  - pose proof (call_reranker_calls self q conv r st3) as H5.
    destruct (call_reranker methods self q conv r st3) as [res st5];
      cbn [fst snd] in *; rewrite H3 in H5.
    destruct H5 as [(e & -> & ->)|(? & rr & p & _ & _ & _ & ->)]; eexists;
      (split; [by rewrite <- ?app_assoc|]); by repeat constructor.
  - unfold ret. cbn [fst snd]. eexists.
    (split; [by rewrite H3, <- ?app_assoc|]). by repeat constructor.
  - eexists. (split; [by rewrite H3, <- ?app_assoc|]).
    by repeat constructor.
Qed.

(** [get_results] calls the generator that [Retrieval.__init__] read from
    the bundle, not the bundle's current ['query_generation'] entry: as
    long as the attribute [self.query_generation] is the one the
    constructor stored, every [get_query] call of a run goes to the
    generator of construction time, whatever the bundle holds by then. *)
Theorem get_results_uses_captured_generator
    self bundle st_new st_built conv st :
  Retrieval_init self bundle st_new = (Ret tt, st_built) →
  attr_of (st_heap st) self "query_generation"
  = attr_of (st_heap st_built) self "query_generation" →
  ∃ d qg calls,
    bundle_of (st_heap st_built) self = Some d
    ∧ d !! "query_generation" = Some qg
    ∧ st_trace (get_results methods py_format self conv st).2
      = st_trace st ++ calls
    ∧ ∀ ev, ev ∈ calls → ev_name ev = "get_query" → ev_recv ev = qg.
Proof.
  intros (d & qg & Hd & Hqg & Hattr)%Retrieval_init_generator Hsame.
  rewrite Hattr in Hsame.
  destruct (get_results_trace_after_query self conv st)
    as (rest & Htrace & Hrest).
  exists d, qg.
  destruct (generate_query_calls self conv st)
    as [(e & _ & Ht)|(qg' & Hqg' & Ht)]; rewrite Ht in Htrace.
  - exists rest. do 3 (split; [done|]).
    intros ev Hev Hname. rewrite Forall_forall in Hrest.
    by destruct (Hrest ev Hev).
  - assert (qg' = qg) as -> by congruence.
    eexists. do 2 (split; [done|]).
    split; [by rewrite Htrace, <- app_assoc|].
    intros ev Hev Hname. simpl in Hev.
    apply elem_of_cons in Hev as [->|Hev]; [done|].
    rewrite Forall_forall in Hrest. by destruct (Hrest ev Hev).
Qed.

(** ** Frame, with the re-ranker *)

Section FrameAll.

Variable R : heap → heap → Prop.
Hypothesis R_refl : ∀ h, R h h.
Hypothesis R_trans : ∀ h1 h2 h3, R h1 h2 → R h2 h3 → R h1 h3.
Hypothesis all_methods_R :
  ∀ cls name f, methods cls name = Some f →
    ∀ recv args h, R h (f recv args h).2.
Hypothesis format_R : ∀ v h, R h (py_format v h).2.

Lemma call_reranker_frame self q conv r st :
  R (st_heap st) (st_heap (call_reranker methods self q conv r st).2).
Proof.
  unfold call_reranker, bind.
  next_read p Ep; [|apply R_refl].
  next_read rr Err; [|apply R_refl].
  next_read m Em; [|apply R_refl].
  rewrite Ep. cbn [fst snd].
  apply getmethod_table in Em as [cls Hm].
  rewrite invoke_eq. simpl. by apply (all_methods_R _ _ _ Hm).
Qed.

(** [get_results] writes nothing of its own on any path.  Whatever
    reflexive and transitive relation between heaps all collaborator
    methods and the formatting of the query respect, [get_results] respects
    too, with or without a re-ranker, returning or raising. *)
Theorem get_results_respects self conv st :
  R (st_heap st) (st_heap (get_results methods py_format self conv st).2).
Proof.
  assert (∀ cls name f, methods cls name = Some f → name ≠ "rerank" →
            ∀ recv args h, R h (f recv args h).2) as Hm.
  { intros cls name f H _. by apply (all_methods_R _ _ _ H). }
  pose proof (generate_query_frame R R_refl Hm self conv st) as K1.
  unfold get_results, bind.
  destruct (generate_query methods self conv st) as [[q|e] st1];
    cbn [fst snd] in *; [|done].
  pose proof (log_query_frame R R_refl R_trans Hm format_R self q st1) as K2.
  destruct (log_query methods py_format self q st1) as [[x|e] st2];
    cbn [fst snd] in *; [|by eapply R_trans].
  pose proof (call_retrieve_frame R R_refl Hm self q st2) as K3.
  destruct (call_retrieve methods self q st2) as [[r|e] st3];
    cbn [fst snd] in *; [|by repeat (eapply R_trans; [eassumption|])].
  assert (R (st_heap st) (st_heap st3)) as K.
  { by repeat (eapply R_trans; [eassumption|]). }
  pose proof (has_reranker_state self st3) as H4.
  destruct (has_reranker self st3) as [[[]|e] st4];
    cbn [fst snd] in *; subst st4; [|done|done].
  eapply R_trans; [exact K|]. apply call_reranker_frame.
Qed.

End FrameAll.

(** ** Which subclasses can be instantiated *)

Lemma instantiate_returns (abstract : list string) (st : state) :
  instantiate abstract st = (Ret tt, st) ↔ abstract = [].
Proof. destruct abstract; by split. Qed.

Lemma chain_abstractmethods_elem
    (inherited : list string) (chain : list class_body) (n : string) :
  Forall (λ b, abstract_defs b = []) chain →
  n ∈ foldl abstractmethods inherited chain
  ↔ n ∈ inherited ∧ Forall (λ b, n ∉ concrete_defs b) chain.
Proof using Type.
  intros Hchain. revert inherited.
  induction Hchain as [|b chain Hb _ IH]; intros inherited; simpl.
  - split; [by intros ?; split|by intros [? _]].
  - rewrite IH. unfold abstractmethods. rewrite Hb. simpl.
    rewrite list_elem_of_filter, Forall_cons.
    split; [intros [[? ?] ?]|intros [? [? ?]]]; auto.
Qed.

Lemma chain_defines (chain : list class_body) (n : string) :
  ¬ Forall (λ b, n ∉ concrete_defs b) chain
  ↔ ∃ b, b ∈ chain ∧ n ∈ concrete_defs b.
Proof.
  split.
  - intros H%not_Forall_Exists; [|apply _].
    apply Exists_exists in H as (b & Hb & Hn). exists b. split; [done|].
    simpl in Hn. by destruct (decide (n ∈ concrete_defs b)).
  - intros (b & Hb & Hn) HF. rewrite Forall_forall in HF.
    by destruct (HF b Hb).
Qed.



End Properties.

(** * The stub configuration, run *)

Example stub_plain_result :
  (stub_get_results stub_self stub_conv (stub_built stub_bundle)).1
  = Ret (VRef 20).
Proof. vm_compute. reflexivity. Qed.

Example stub_reranked_result :
  (stub_get_results stub_self stub_conv (stub_built stub_bundle_reranker)).1
  = Ret (VRef 21).
Proof. vm_compute. reflexivity. Qed.

Example stub_plain_trace :
  st_trace (stub_get_results stub_self stub_conv (stub_built stub_bundle)).2
  = [ EvCall (VRef 3) "get_query" [VRef 7] (Ret (VStr "weather today"));
      EvCall (VRef 4) "info" [VStr "New query: weather today"] (Ret VNone);
      EvCall (VRef 1) "retrieve" [VStr "weather today"] (Ret (VRef 20)) ].
Proof. vm_compute. reflexivity. Qed.

Example stub_logged :
  st_heap (stub_get_results stub_self stub_conv (stub_built stub_bundle)).2
    !! 6%positive
  = Some (OList [VStr "New query: weather today"]).
Proof. vm_compute. reflexivity. Qed.

(** ** The theorems at the stub configuration *)

Lemma get_results_without_reranker_witness :
  stub_get_results stub_self stub_conv (stub_built stub_bundle)
  = (Ret (VRef 20), stub_st3 stub_bundle).
Proof.
  apply get_results_without_reranker
    with (query := stub_query) (st1 := stub_st1 stub_bundle)
         (logged := VNone) (st2 := stub_st2 stub_bundle)
         (d := stub_bundle);
    vm_compute; reflexivity.
Defined.

Lemma get_results_with_reranker_witness :
  stub_get_results stub_self stub_conv (stub_built stub_bundle_reranker)
  = invoke (BoundMethod (VRef 5) "rerank" stub_rerank)
           [stub_query; stub_conv; VRef 20; stub_params]
           (stub_st3 stub_bundle_reranker)
  ∧ (stub_get_results stub_self stub_conv (stub_built stub_bundle_reranker)).1
    = (stub_rerank (VRef 5) [stub_query; stub_conv; VRef 20; stub_params]
         (st_heap (stub_st3 stub_bundle_reranker))).1.
Proof.
  apply (get_results_with_reranker stub_methods stub_format)
    with (st1 := stub_st1 stub_bundle_reranker)
         (logged := VNone) (st2 := stub_st2 stub_bundle_reranker)
         (d := stub_bundle_reranker)
         (rerank := BoundMethod (VRef 5) "rerank" stub_rerank);
    vm_compute; reflexivity.
Defined.

Lemma Retrieval_init_missing_query_generation_witness :
  Retrieval_init stub_self stub_params
    (stub_fresh {[ "logger" := VRef 4 ]})
  = (Raise (KeyError "query_generation"),
     State (<[1%positive := OInst "StubEngine" (<["params" := VRef 2]> ∅)]>
              (st_heap (stub_fresh {[ "logger" := VRef 4 ]})))
           [])
  ∧ st_trace (Retrieval_init stub_self stub_params
                (stub_fresh {[ "logger" := VRef 4 ]})).2
    = [].
Proof.
  apply (Retrieval_init_missing_query_generation
           1%positive 2%positive "StubEngine" ∅
           {[ "logger" := VRef 4 ]} (stub_fresh {[ "logger" := VRef 4 ]}));
    vm_compute; reflexivity.
Defined.

Lemma get_results_missing_logger_witness :
  stub_get_results stub_self stub_conv
    (stub_built {[ "query_generation" := VRef 3 ]})
  = (Raise (KeyError "logger"), stub_st1 {[ "query_generation" := VRef 3 ]})
  ∧ ∃ qg,
      st_trace (stub_st1 {[ "query_generation" := VRef 3 ]})
      = st_trace (stub_built {[ "query_generation" := VRef 3 ]})
          ++ [EvCall qg "get_query" [stub_conv] (Ret stub_query)].
Proof.
  apply (get_results_missing_logger stub_methods stub_format)
    with (d := {[ "query_generation" := VRef 3 ]});
    vm_compute; reflexivity.
Defined.

Lemma get_results_logs_query_once_witness :
  ∃ qg q st1 d lg text x calls,
    attr_of (st_heap (stub_built stub_bundle)) stub_self "query_generation"
    = Some qg
    ∧ generate_query stub_methods stub_self stub_conv (stub_built stub_bundle)
      = (Ret q, st1)
    ∧ bundle_of (st_heap st1) stub_self = Some d
    ∧ d !! "logger" = Some lg
    ∧ field_text q text
    ∧ st_trace (stub_get_results stub_self stub_conv
                  (stub_built stub_bundle)).2
      = st_trace (stub_built stub_bundle) ++ calls
    ∧ head calls = Some (EvCall qg "get_query" [stub_conv] (Ret q))
    ∧ filter (λ e, ev_name e = "info") calls
      = [EvCall lg "info" [VStr ("New query: " +:+ text)] (Ret x)]
    ∧ str_contains text ("New query: " +:+ text) = true.
Proof.
  apply (get_results_logs_query_once stub_methods stub_format
           stub_self stub_conv (stub_built stub_bundle) (VRef 20)).
  vm_compute. reflexivity.
Defined.

(** The stub collaborators write at location 6 only. *)
Lemma stub_methods_keep cls name f :
  stub_methods cls name = Some f →
  name ≠ "rerank" →
  ∀ recv args h, keeps stub_self 2 7 h (f recv args h).2.
Proof.
  unfold stub_methods. intros H Hname recv args h.
  repeat case_match; simplify_eq.
  - done.
  - unfold stub_info. repeat case_match; try done.
    unfold keeps, attr_of, stub_self. simpl.
    by rewrite !lookup_insert_ne.
  - unfold stub_retrieve. by case_decide.
  - exfalso. apply Hname.
    match goal with
    | E : _ && _ = true |- _ => apply andb_true_iff in E as [_ E]
    end.
    by apply String.eqb_eq.
Qed.

Lemma stub_format_keeps v h : keeps stub_self 2 7 h (stub_format v h).2.
Proof. done. Qed.

Lemma get_results_keeps_bundle_and_conversation_witness :
  st_heap (stub_get_results stub_self (VRef 7) (stub_built stub_bundle)).2
    !! 2%positive
  = st_heap (stub_built stub_bundle) !! 2%positive
  ∧ st_heap (stub_get_results stub_self (VRef 7) (stub_built stub_bundle)).2
      !! 7%positive
    = st_heap (stub_built stub_bundle) !! 7%positive.
Proof.
  apply (get_results_keeps_bundle_and_conversation stub_methods stub_format
           stub_self 2%positive 7%positive stub_bundle
           (stub_built stub_bundle) stub_methods_keep stub_format_keeps);
    vm_compute; reflexivity.
Defined.

Lemma get_results_passes_own_bundle_witness :
  (∃ lp, stub_params = VRef lp
         ∧ st_heap (stub_st3 stub_bundle_reranker) !! lp
           = Some (ODict stub_bundle_reranker))
  ∧ ∃ res,
      st_trace (stub_get_results stub_self stub_conv
                  (stub_built stub_bundle_reranker)).2
      = st_trace (stub_st3 stub_bundle_reranker)
          ++ [EvCall (VRef 5) "rerank"
                     [stub_query; stub_conv; VRef 20; stub_params] res].
Proof.
  apply (get_results_passes_own_bundle stub_methods stub_format)
    with (st1 := stub_st1 stub_bundle_reranker)
         (logged := VNone) (st2 := stub_st2 stub_bundle_reranker)
         (st_new := stub_fresh stub_bundle_reranker)
         (st_built := stub_built stub_bundle_reranker)
         (rerank := BoundMethod (VRef 5) "rerank" stub_rerank);
    vm_compute; reflexivity.
Defined.

(** C8, as stated, fails: on the stub configuration neither base body
    raises. *)
Lemma base_bodies_raise_counterexample :
  ¬ (∃ e st',
       Retrieval_retrieve stub_self stub_query (stub_built stub_bundle)
       = (Raise e, st'))
  ∧ ¬ (∃ e st',
         ReRanker_rerank (VRef 5) stub_query stub_conv (VRef 20) stub_params
           (stub_built stub_bundle_reranker)
         = (Raise e, st')).
Proof. split; intros (e & st' & H); discriminate H. Qed.

(** The concrete subclasses are instantiable; the base types are not. *)
Example stub_classes_instantiable st :
  instantiate
    (abstractmethods (abstractmethods [] Retrieval_body) StubEngine_body) st
  = (Ret tt, st)
  ∧ instantiate
      (abstractmethods (abstractmethods [] ReRanker_body) StubReRanker_body) st
    = (Ret tt, st).
Proof. split; vm_compute; reflexivity. Qed.

(** ** The further properties at the stub configuration *)

(** A bundle with a query generator and nothing else is enough to
    construct the engine. *)
Lemma Retrieval_init_returns_witness :
  ∃ st',
    Retrieval_init (VRef 1) (VRef 2)
      (stub_fresh {[ "query_generation" := VRef 3 ]})
    = (Ret tt, st')
    ∧ attr_of (st_heap st') (VRef 1) "params" = Some (VRef 2)
    ∧ attr_of (st_heap st') (VRef 1) "query_generation" = Some (VRef 3)
    ∧ bundle_of (st_heap st') (VRef 1)
      = Some {[ "query_generation" := VRef 3 ]}
    ∧ (∀ name, name ≠ "params" → name ≠ "query_generation" →
         attr_of (st_heap st') (VRef 1) name
         = (∅ : gmap string value) !! name)
    ∧ (∀ l', l' ≠ 1%positive →
         st_heap st' !! l'
         = st_heap (stub_fresh {[ "query_generation" := VRef 3 ]}) !! l')
    ∧ st_trace st'
      = st_trace (stub_fresh {[ "query_generation" := VRef 3 ]}).
Proof.
  apply (Retrieval_init_returns 1%positive 2%positive "StubEngine" ∅
           {[ "query_generation" := VRef 3 ]} (VRef 3)
           (stub_fresh {[ "query_generation" := VRef 3 ]}));
    vm_compute; reflexivity.
Defined.

Lemma Retrieval_init_keeps_reference_witness :
  bundle_of (<[2%positive := ODict stub_bundle_reranker]>
               (st_heap (stub_built stub_bundle))) (VRef 1)
  = Some stub_bundle_reranker
  ∧ has_reranker (VRef 1)
      (State (<[2%positive := ODict stub_bundle_reranker]>
                (st_heap (stub_built stub_bundle))) [])
    = (Ret (bool_decide (is_Some (stub_bundle_reranker !! "reranker"))),
       State (<[2%positive := ODict stub_bundle_reranker]>
                (st_heap (stub_built stub_bundle))) []).
Proof.
  apply (Retrieval_init_keeps_reference 1%positive 2%positive
           (stub_fresh stub_bundle) (stub_built stub_bundle)
           stub_bundle_reranker []).
  vm_compute. reflexivity.
Defined.

(** The re-ranker at location 5, constructed on [None]. *)
Lemma ReRanker_init_returns_witness :
  ∃ st',
    ReRanker_init (VRef 5) VNone (stub_fresh stub_bundle) = (Ret tt, st')
    ∧ attr_of (st_heap st') (VRef 5) "params" = Some VNone
    ∧ (∀ name, name ≠ "params" →
         attr_of (st_heap st') (VRef 5) name
         = (∅ : gmap string value) !! name)
    ∧ (∀ l', l' ≠ 5%positive →
         st_heap st' !! l' = st_heap (stub_fresh stub_bundle) !! l')
    ∧ st_trace st' = st_trace (stub_fresh stub_bundle).
Proof.
  apply (ReRanker_init_returns 5%positive "StubReRanker" ∅ VNone
           (stub_fresh stub_bundle)).
  vm_compute. reflexivity.
Defined.

(** The engine before its constructor has run. *)
Lemma get_results_unconstructed_witness :
  stub_get_results stub_self stub_conv (stub_fresh stub_bundle)
  = (Raise (AttributeError "query_generation"), stub_fresh stub_bundle).
Proof.
  apply (get_results_unconstructed stub_methods stub_format).
  vm_compute. reflexivity.
Defined.

Lemma get_results_logger_not_object_witness :
  stub_get_results stub_self stub_conv
    (stub_built (<["logger" := VNone]> stub_bundle))
  = (Raise (AttributeError "info"),
     stub_st1 (<["logger" := VNone]> stub_bundle)).
Proof.
  apply (get_results_logger_not_object stub_methods stub_format)
    with (query := stub_query) (d := <["logger" := VNone]> stub_bundle)
         (lg := VNone);
    [vm_compute; reflexivity..|done].
Defined.

Lemma get_results_reranker_not_object_witness :
  stub_get_results stub_self stub_conv
    (stub_built (<["reranker" := VNone]> stub_bundle))
  = (Raise (AttributeError "rerank"),
     stub_st3 (<["reranker" := VNone]> stub_bundle)).
Proof.
  apply (get_results_reranker_not_object stub_methods stub_format)
    with (query := stub_query)
         (st1 := stub_st1 (<["reranker" := VNone]> stub_bundle))
         (logged := VNone)
         (st2 := stub_st2 (<["reranker" := VNone]> stub_bundle))
         (result_list := VRef 20)
         (d := <["reranker" := VNone]> stub_bundle) (rr := VNone);
    [vm_compute; reflexivity..|done].
Defined.

Lemma get_results_inherited_rerank_witness :
  (get_results inheriting_methods stub_format stub_self stub_conv
     (stub_built stub_bundle_reranker)).1
  = Ret VNone
  ∧ st_heap (get_results inheriting_methods stub_format stub_self stub_conv
               (stub_built stub_bundle_reranker)).2
    = st_heap (stub_st3 stub_bundle_reranker).
Proof.
  apply (get_results_inherited_rerank inheriting_methods stub_format)
    with (query := stub_query) (st1 := stub_st1 stub_bundle_reranker)
         (logged := VNone) (st2 := stub_st2 stub_bundle_reranker)
         (result_list := VRef 20) (d := stub_bundle_reranker)
         (lr := 5%positive) (cls := "StubReRanker") (attrs := ∅);
    vm_compute; reflexivity.
Defined.

(** The bundle's ['query_generation'] entry is dropped after construction;
    the run still goes to the generator at location 3. *)
Lemma get_results_uses_captured_generator_witness :
  ∃ d qg calls,
    bundle_of (st_heap (stub_built stub_bundle)) stub_self = Some d
    ∧ d !! "query_generation" = Some qg
    ∧ st_trace
        (stub_get_results stub_self stub_conv
           (State (<[2%positive := ODict {[ "logger" := VRef 4 ]}]>
                     (st_heap (stub_built stub_bundle))) [])).2
      = [] ++ calls
    ∧ ∀ ev, ev ∈ calls → ev_name ev = "get_query" → ev_recv ev = qg.
Proof.
  apply (get_results_uses_captured_generator stub_methods stub_format
           stub_self stub_params (stub_fresh stub_bundle)
           (stub_built stub_bundle) stub_conv
           (State (<[2%positive := ODict {[ "logger" := VRef 4 ]}]>
                     (st_heap (stub_built stub_bundle))) []));
    vm_compute; reflexivity.
Defined.

Lemma same_bundle_refl h : same_bundle h h.
Proof. done. Qed.

Lemma same_bundle_trans h1 h2 h3 :
  same_bundle h1 h2 → same_bundle h2 h3 → same_bundle h1 h3.
Proof. unfold same_bundle. congruence. Qed.

Lemma stub_methods_same_bundle cls name f :
  stub_methods cls name = Some f →
  ∀ recv args h, same_bundle h (f recv args h).2.
Proof.
  unfold stub_methods. intros H recv args h.
  repeat case_match; simplify_eq; try done.
  - unfold stub_info. repeat case_match; try done.
    unfold same_bundle. simpl. by rewrite lookup_insert_ne.
  - unfold stub_retrieve. by case_decide.
Qed.

Lemma get_results_respects_witness :
  same_bundle (st_heap (stub_built stub_bundle_reranker))
    (st_heap (stub_get_results stub_self stub_conv
                (stub_built stub_bundle_reranker)).2).
Proof.
  apply (get_results_respects stub_methods stub_format same_bundle
           same_bundle_refl same_bundle_trans stub_methods_same_bundle).
  done.
Defined.

(** ** The logger's record at the stub configuration *)

Lemma stub_info_records cls f :
  stub_methods cls "info" = Some f → records_at 6 f.
Proof.
  unfold stub_methods. intros H recv args h xs Hxs.
  repeat case_match; simplify_eq;
    try (match goal with
         | E : _ && _ = true |- _ =>
             apply andb_true_iff in E as [_ E]; by vm_compute in E
         end).
  unfold stub_info, loc in *. cbv beta. rewrite Hxs. simpl.
  by rewrite lookup_insert_eq.
Qed.

Lemma stub_others_leave cls name f :
  stub_methods cls name = Some f → name ≠ "info" → leaves_record 6 f.
Proof.
  unfold stub_methods. intros H Hname recv args h.
  repeat case_match; simplify_eq; try done.
  - exfalso. apply Hname.
    match goal with
    | E : _ && _ = true |- _ => apply andb_true_iff in E as [_ E]
    end.
    by apply String.eqb_eq.
  - unfold stub_retrieve. by case_decide.
Qed.



(** ** Instantiation along the stub classes *)



Example stub_descendants_instantiable :
  instantiate
    (chain_abstractmethods Retrieval_body [StubEngine_body; ClassBody [] []])
    (stub_fresh stub_bundle)
  = (Ret tt, stub_fresh stub_bundle)
  ∧ instantiate
      (chain_abstractmethods Retrieval_body [ClassBody [] ["retrieve"]])
      (stub_fresh stub_bundle)
    = (Raise TypeError, stub_fresh stub_bundle).
Proof. split; vm_compute; reflexivity. Qed.
